(** * aws-emr-launch: the get/list lambda APIs over the SSM parameter store

    A shallow embedding of
    [aws_emr_launch/control_plane/lambda_sources/apis/get_list_apis.py]:
    the two helpers [_get_parameter_values] and [_get_parameter_value] and
    the six lambda handlers built on them.

    The handlers are effectful Python: they call the SSM client, write to the
    logger and raise exceptions.  They are modelled in a small state and
    exception monad [py] over a [world] that records the log and the calls
    made to the SSM client.  The SSM client ([boto3.client('ssm')]) and
    [json.loads] are libraries outside the module: they are parameters of the
    development. *)

From stdpp Require Import gmap strings pretty list.
From Stdlib Require Import ZArith Ascii.

Open Scope string_scope.

(** ** Python values read from the event *)

(** The values that [event.get] can hand to the handlers.  The event is a
    decoded JSON object; the scalars are modelled (JSON [null], booleans,
    integers and strings).  Floats and nested containers are left out: the
    handlers only interpolate the fields they read into keys and messages. *)
Inductive pyval :=
  | PNone
  | PBool (b : bool)
  | PInt (z : Z)
  | PStr (s : string).

#[global] Instance pyval_eq_dec : EqDecision pyval.
Proof. solve_decision. Defined.

(** Truth value of [if next_token:]. *)
Definition py_truthy (v : pyval) : bool :=
  match v with
  | PNone => false
  | PBool b => b
  | PInt z => negb (Z.eqb z 0)
  | PStr s => negb (String.eqb s "")
  end.

(** [f'{v}']: the text an f-string interpolates for a value. *)
Definition py_format (v : pyval) : string :=
  match v with
  | PNone => "None"
  | PBool true => "True"
  | PBool false => "False"
  | PInt z => pretty z
  | PStr s => s
  end.

(** ** Exceptions *)

(** What the libraries raise: botocore's [ClientError], with the code found
    at [e.response['Error']['Code']]; the [JSONDecodeError] of [json.loads];
    or any other [Exception] (a parameter validation error of boto3, a
    connection error, ...). *)
Inductive lib_error :=
  | ClientError (code : string) (message : string)
  | JSONDecodeError (message : string)
  | OtherError (description : string).

(** The exceptions a handler can end with: a library exception passed on, or
    one of the three classes the module declares. *)
Inductive exn :=
  | LibError (e : lib_error)
  | EMRProfileNotFoundError (msg : string)
  | ClusterConfigurationNotFoundError (msg : string)
  | EMRLaunchFunctionNotFoundError (msg : string).

(** The message an exception of the module was built with. *)
Definition exn_message (e : exn) : option string :=
  match e with
  | LibError _ => None
  | EMRProfileNotFoundError m
  | ClusterConfigurationNotFoundError m
  | EMRLaunchFunctionNotFoundError m => Some m
  end.

Definition is_not_found_error (e : exn) : bool :=
  match e with
  | LibError _ => false
  | _ => true
  end.

(** ** The SSM client and [json.loads] *)

Record parameter := { Name : string; Value : string }.

(** Reply of [get_parameters_by_path]: ['Parameters'], and ['NextToken']
    when the service has more pages. *)
Record by_path_result := {
  Parameters : list parameter;
  NextToken : option string
}.

(** Reply of [get_parameter]; the field is ['Parameter'] in the source. *)
Record get_parameter_result := { Parameter_ : parameter }.

Inductive reply (A : Type) :=
  | Succeeds (a : A)
  | Fails (e : lib_error).
Arguments Succeeds {A} a.
Arguments Fails {A} e.

(** What [json.loads] does with a text: a decoded value, or the message of
    the [JSONDecodeError] it raises.  It raises no [ClientError]. *)
Inductive decoding (A : Type) :=
  | Decoded (a : A)
  | Undecodable (message : string).
Arguments Decoded {A} a.
Arguments Undecodable {A} message.

(** [get_parameters_by_path] receives its keyword arguments as the dict
    [params], unpacked; [get_parameter] is called with [Name=...] alone. *)
Record ssm_client := {
  get_parameters_by_path : gmap string pyval → reply by_path_result;
  get_parameter : string → reply get_parameter_result
}.

Inductive ssm_call :=
  | GetParametersByPath (params : gmap string pyval)
  | GetParameter (name : string).

(** ** The world: logger and calls made *)

(** Records written to [LOGGER].  The two formatted messages that embed
    [json.dumps(event)], [str(event)], [str(e)] and the traceback are kept
    structured. *)
Inductive log_record :=
  | INFO_lambda_metadata (event : gmap string pyval)
  | ERROR_text (msg : string)
  | ERROR_processing_event (event : gmap string pyval) (e : exn).

Record world := {
  log : list log_record;
  ssm_calls : list ssm_call
}.

Definition empty_world : world := {| log := []; ssm_calls := [] |}.

(** ** The monad of handler code *)

Inductive outcome (A : Type) :=
  | Return (a : A)
  | Raise (e : exn).
Arguments Return {A} a.
Arguments Raise {A} e.

Definition py (A : Type) : Type := world → outcome A * world.

#[global] Instance py_ret : MRet py := λ A a w, (Return a, w).

#[global] Instance py_bind : MBind py := λ A B f m w,
  match m w with
  | (Return a, w') => f a w'
  | (Raise e, w') => (Raise e, w')
  end.

Definition raise {A : Type} (e : exn) : py A := λ w, (Raise e, w).

(** [try: body except ... as e: handler e].  An exception raised by the
    handler itself leaves the statement. *)
Definition try_except {A : Type} (body : py A) (handler : exn → py A) : py A :=
  λ w,
    match body w with
    | (Return a, w') => (Return a, w')
    | (Raise e, w') => handler e w'
    end.

Definition LOGGER_write (r : log_record) : py unit :=
  λ w, (Return (), {| log := log w ++ [r]; ssm_calls := ssm_calls w |}).

Definition record_call (c : ssm_call) : py unit :=
  λ w, (Return (), {| log := log w; ssm_calls := ssm_calls w ++ [c] |}).

(** A library call: its exception, if any, becomes a raised [LibError]. *)
Definition lift_reply {A : Type} (r : reply A) : py A :=
  match r with
  | Succeeds a => mret a
  | Fails e => raise (LibError e)
  end.

Definition lift_decoding {A : Type} (r : decoding A) : py A :=
  match r with
  | Decoded a => mret a
  | Undecodable m => raise (LibError (JSONDecodeError m))
  end.

(** ** Module constants *)

Definition PROFILES_SSM_PARAMETER_PREFIX : string := "/emr_launch/emr_profiles".
Definition CONFIGURATIONS_SSM_PARAMETER_PREFIX : string := "/emr_launch/cluster_configurations".
Definition FUNCTIONS_SSM_PARAMETER_PREFIX : string := "/emr_launch/emr_launch_functions".

(** ** Values of a list response *)

(** A list response is a dict whose values are the list of decoded documents
    and, under ['NextToken'], the token of the service. *)
Inductive respval (Doc : Type) :=
  | Documents (docs : list Doc)
  | Token (t : string).
Arguments Documents {Doc} docs.
Arguments Token {Doc} t.

(** ** The helpers and the six handlers *)

Section Handlers.

Context {Doc : Type}.

(** [boto3.client('ssm')] and [json.loads]; [Doc] is the type of the values
    [json.loads] returns. *)
Variable ssm : ssm_client.
Variable json_loads : string → decoding Doc.

(** The comprehension [[json.loads(p['Value']) for p in result['Parameters']]]:
    values are decoded from left to right and the first failure ends it. *)
Fixpoint decode_values (parameters : list parameter) : py (list Doc) :=
  match parameters with
  | [] => mret []
  | p :: rest =>
      d ← lift_decoding (json_loads (Value p));
      ds ← decode_values rest;
      mret (d :: ds)
  end.

(** The handlers always pass [namespace] and [next_token], so the defaults
    of the signature play no part. *)
Definition _get_parameter_values (ssm_parameter_prefix top_level_return : string)
    (namespace next_token : pyval) : py (gmap string (respval Doc)) :=
  let params : gmap string pyval :=
    {[ "Path" := PStr (ssm_parameter_prefix +:+ "/" +:+ py_format namespace +:+ "/") ]} in
  let params :=
    if py_truthy next_token then <["NextToken" := next_token]> params else params in
  _ ← record_call (GetParametersByPath params);
  result ← lift_reply (get_parameters_by_path ssm params);
  values ← decode_values (Parameters result);
  let return_val : gmap string (respval Doc) :=
    {[ top_level_return := Documents values ]} in
  let return_val :=
    match NextToken result with
    | Some t => <["NextToken" := Token t]> return_val
    | None => return_val
    end in
  mret return_val.

Definition _get_parameter_value (ssm_parameter_prefix : string)
    (name namespace : pyval) : py Doc :=
  let key :=
    ssm_parameter_prefix +:+ "/" +:+ py_format namespace +:+ "/" +:+ py_format name in
  _ ← record_call (GetParameter key);
  r ← lift_reply (get_parameter ssm key);
  let configuration_json := Value (Parameter_ r) in
  lift_decoding (json_loads configuration_json).

(** The [except Exception as e] block shared, textually, by all handlers. *)
Definition log_and_reraise {A : Type} (event : gmap string pyval) (e : exn) : py A :=
  _ ← LOGGER_write (ERROR_processing_event event e);
  raise e.

Definition get_profiles_handler (event : gmap string pyval)
    : py (gmap string (respval Doc)) :=
  _ ← LOGGER_write (INFO_lambda_metadata event);
  let namespace := default (PStr "default") (event !! "Namespace") in
  let next_token := default PNone (event !! "NextToken") in
  try_except
    (_get_parameter_values PROFILES_SSM_PARAMETER_PREFIX "EMRProfiles" namespace next_token)
    (λ e, log_and_reraise event e).

Definition get_profile_handler (event : gmap string pyval) : py Doc :=
  _ ← LOGGER_write (INFO_lambda_metadata event);
  let profile_name := default (PStr "") (event !! "ProfileName") in
  let namespace := default (PStr "default") (event !! "Namespace") in
  try_except
    (_get_parameter_value PROFILES_SSM_PARAMETER_PREFIX profile_name namespace)
    (λ e,
       match e with
       | LibError (ClientError code _) =>
           if String.eqb code "ParameterNotFound" then
             let msg := "ProfileNotFound: " +:+ py_format namespace +:+ "/"
                          +:+ py_format profile_name in
             _ ← LOGGER_write (ERROR_text msg);
             raise (EMRProfileNotFoundError msg)
           else log_and_reraise event e
       | _ => log_and_reraise event e
       end).

Definition get_configurations_handler (event : gmap string pyval)
    : py (gmap string (respval Doc)) :=
  _ ← LOGGER_write (INFO_lambda_metadata event);
  let namespace := default (PStr "default") (event !! "Namespace") in
  let next_token := default PNone (event !! "NextToken") in
  try_except
    (_get_parameter_values CONFIGURATIONS_SSM_PARAMETER_PREFIX "ClusterConfigurations"
       namespace next_token)
    (λ e, log_and_reraise event e).

Definition get_configuration_handler (event : gmap string pyval) : py Doc :=
  _ ← LOGGER_write (INFO_lambda_metadata event);
  let configuration_name := default (PStr "") (event !! "ConfigurationName") in
  let namespace := default (PStr "default") (event !! "Namespace") in
  try_except
    (_get_parameter_value CONFIGURATIONS_SSM_PARAMETER_PREFIX configuration_name namespace)
    (λ e,
       match e with
       | LibError (ClientError code _) =>
           if String.eqb code "ParameterNotFound" then
             let msg := "ConfigurationNotFound: " +:+ py_format namespace +:+ "/"
                          +:+ py_format configuration_name in
             _ ← LOGGER_write (ERROR_text msg);
             raise (EMRProfileNotFoundError msg)
           else log_and_reraise event e
       | _ => log_and_reraise event e
       end).

Definition get_functions_handler (event : gmap string pyval)
    : py (gmap string (respval Doc)) :=
  _ ← LOGGER_write (INFO_lambda_metadata event);
  let namespace := default (PStr "default") (event !! "Namespace") in
  let next_token := default PNone (event !! "NextToken") in
  try_except
    (_get_parameter_values FUNCTIONS_SSM_PARAMETER_PREFIX "EMRLaunchFunctions"
       namespace next_token)
    (λ e, log_and_reraise event e).

Definition get_function_handler (event : gmap string pyval) : py Doc :=
  _ ← LOGGER_write (INFO_lambda_metadata event);
  let function_name := default (PStr "") (event !! "FunctionName") in
  let namespace := default (PStr "default") (event !! "Namespace") in
  try_except
    (_get_parameter_value FUNCTIONS_SSM_PARAMETER_PREFIX function_name namespace)
    (λ e,
       match e with
       | LibError (ClientError code _) =>
           if String.eqb code "ParameterNotFound" then
             let msg := "FunctionNotFound: " +:+ py_format namespace +:+ "/"
                          +:+ py_format function_name in
             _ ← LOGGER_write (ERROR_text msg);
             raise (EMRProfileNotFoundError msg)
           else log_and_reraise event e
       | _ => log_and_reraise event e
       end).

(** ** The three categories *)

(** The six handlers are one list handler and one get handler for each of
    three categories; the tables below read off, from each handler's body,
    the constants it passes. *)
Inductive category := Profile | Configuration | Function.

Definition list_handler (c : category) : gmap string pyval → py (gmap string (respval Doc)) :=
  match c with
  | Profile => get_profiles_handler
  | Configuration => get_configurations_handler
  | Function => get_functions_handler
  end.

Definition get_handler (c : category) : gmap string pyval → py Doc :=
  match c with
  | Profile => get_profile_handler
  | Configuration => get_configuration_handler
  | Function => get_function_handler
  end.

(** Pure reading of the comprehension of [decode_values]. *)
Fixpoint decode_list (parameters : list parameter) : decoding (list Doc) :=
  match parameters with
  | [] => Decoded []
  | p :: rest =>
      match json_loads (Value p) with
      | Undecodable m => Undecodable m
      | Decoded d =>
          match decode_list rest with
          | Undecodable m => Undecodable m
          | Decoded ds => Decoded (d :: ds)
          end
      end
  end.

End Handlers.

Definition category_prefix (c : category) : string :=
  match c with
  | Profile => PROFILES_SSM_PARAMETER_PREFIX
  | Configuration => CONFIGURATIONS_SSM_PARAMETER_PREFIX
  | Function => FUNCTIONS_SSM_PARAMETER_PREFIX
  end.

(** [top_level_return] of each list handler. *)
Definition collection_key (c : category) : string :=
  match c with
  | Profile => "EMRProfiles"
  | Configuration => "ClusterConfigurations"
  | Function => "EMRLaunchFunctions"
  end.

(** The event field each get handler reads the name from. *)
Definition name_field (c : category) : string :=
  match c with
  | Profile => "ProfileName"
  | Configuration => "ConfigurationName"
  | Function => "FunctionName"
  end.

(** The label each get handler starts its not-found message with. *)
Definition not_found_label (c : category) : string :=
  match c with
  | Profile => "ProfileNotFound: "
  | Configuration => "ConfigurationNotFound: "
  | Function => "FunctionNotFound: "
  end.

(** The exception class the specification assigns to each category (the
    module declares the three classes, one per category). *)
Definition category_not_found_error (c : category) (msg : string) : exn :=
  match c with
  | Profile => EMRProfileNotFoundError msg
  | Configuration => ClusterConfigurationNotFoundError msg
  | Function => EMRLaunchFunctionNotFoundError msg
  end.

(** ** String notions used in the statements *)

(** [sub] occurs in [s]. *)
Definition contains (s sub : string) : Prop :=
  ∃ before after, s = before +:+ sub +:+ after.

(** No path separator in a namespace name: one level of the hierarchy. *)
Fixpoint no_separator (s : string) : bool :=
  match s with
  | EmptyString => true
  | String a rest => negb (Ascii.eqb a "/"%char) && no_separator rest
  end.

(** ** What a run sent to the service *)

(** Between [w] and [w'] exactly one call was made: a path query whose
    ['Path'] argument is [path]. *)
Definition queried_path (w w' : world) (path : string) : Prop :=
  ∃ params, ssm_calls w' = (ssm_calls w ++ [GetParametersByPath params])%list
            ∧ params !! "Path" = Some (PStr path).

(** Between [w] and [w'] exactly one call was made: a fetch of [key]. *)
Definition fetched_key (w w' : world) (key : string) : Prop :=
  ssm_calls w' = (ssm_calls w ++ [GetParameter key])%list.

(** ** A parameter store to run the handlers on *)

(** An in-memory stand-in for the service: [get_parameter] finds the exact
    key or fails with the code [ParameterNotFound]; [get_parameters_by_path]
    returns, in store order and in one page, the entries whose key starts
    with the path.  Matching by plain string prefix is the least scoped
    matching a store could use. *)
Definition store_lookup (store : list (string * string)) (key : string) : option string :=
  snd <$> find (λ kv, String.eqb (fst kv) key) store.

Definition store_client (store : list (string * string)) : ssm_client := {|
  get_parameters_by_path := λ params,
    match params !! "Path" with
    | Some (PStr path) =>
        Succeeds {|
          Parameters :=
            (λ kv, {| Name := fst kv; Value := snd kv |})
              <$> filter (λ kv, String.prefix path (fst kv) = true) store;
          NextToken := None |}
    | _ => Fails (OtherError "ParamValidationError")
    end;
  get_parameter := λ key,
    match store_lookup store key with
    | Some v => Succeeds {| Parameter_ := {| Name := key; Value := v |} |}
    | None => Fails (ClientError "ParameterNotFound" key)
    end
|}.

(** A service that answers every path query with one fixed page. *)
Definition page_client (page : by_path_result) : ssm_client := {|
  get_parameters_by_path := λ _, Succeeds page;
  get_parameter := λ key, Fails (ClientError "ParameterNotFound" key)
|}.

(** A service that fails every call with the same exception. *)
Definition failing_client (e : lib_error) : ssm_client := {|
  get_parameters_by_path := λ _, Fails e;
  get_parameter := λ _, Fails e
|}.

(** A decoder for the three JSON literal names, enough to run examples. *)
Inductive literal := LNull | LTrue | LFalse.

Definition literal_loads (text : string) : decoding literal :=
  if String.eqb text "null" then Decoded LNull
  else if String.eqb text "true" then Decoded LTrue
  else if String.eqb text "false" then Decoded LFalse
  else Undecodable "Expecting value".

(** ** Running the handlers: examples *)

Example profile_stored :
  fst (get_profile_handler
         (store_client [("/emr_launch/emr_profiles/default/small", "true")])
         literal_loads {[ "ProfileName" := PStr "small" ]} empty_world)
  = Return LTrue.
Proof. vm_compute. reflexivity. Qed.

Example profile_missing :
  fst (get_profile_handler (store_client []) literal_loads
         {[ "ProfileName" := PStr "missing" ]} empty_world)
  = Raise (EMRProfileNotFoundError "ProfileNotFound: default/missing").
Proof. vm_compute. reflexivity. Qed.

Example configurations_listed :
  fst (get_configurations_handler
         (store_client [("/emr_launch/cluster_configurations/team-a/c1", "true");
                        ("/emr_launch/cluster_configurations/team-ab/c0", "null");
                        ("/emr_launch/cluster_configurations/team-a/c2", "false")])
         literal_loads {[ "Namespace" := PStr "team-a" ]} empty_world)
  = Return {[ "ClusterConfigurations" := Documents [LTrue; LFalse] ]}.
Proof. vm_compute. reflexivity. Qed.

(** ** What one run of a helper or of a handler does *)

Section Runs.

Context {Doc : Type}.
Variable ssm : ssm_client.
Variable json_loads : string → decoding Doc.

Lemma decode_values_run (ps : list parameter) (w : world) :
  decode_values json_loads ps w =
    (match decode_list json_loads ps with
     | Decoded ds => Return ds
     | Undecodable m => Raise (LibError (JSONDecodeError m))
     end, w).
Proof.
  induction ps as [|p ps IH]; [reflexivity|].
  cbn [decode_values decode_list].
  unfold mbind, py_bind.
  destruct (json_loads (Value p)) as [d|m]; cbn; [|reflexivity].
  rewrite IH. destruct (decode_list json_loads ps); reflexivity.
Qed.

Lemma decode_list_Forall2 (ps : list parameter) (ds : list Doc) :
  decode_list json_loads ps = Decoded ds ↔
  Forall2 (λ p d, json_loads (Value p) = Decoded d) ps ds.
Proof.
  revert ds. induction ps as [|p ps IH]; intros ds; cbn.
  - split.
    + intros [= <-]. constructor.
    + intros H. inversion H. reflexivity.
  - split.
    + destruct (json_loads (Value p)) as [d|e] eqn:Hd; [|discriminate].
      destruct (decode_list json_loads ps) as [ds'|e] eqn:Hds; [|discriminate].
      intros [= <-]. constructor; [exact Hd|]. apply IH. reflexivity.
    + intros H. inversion H as [|? d ? ds' Hd Hds]; subst.
      rewrite Hd. apply IH in Hds. rewrite Hds. reflexivity.
Qed.

Lemma _get_parameter_values_run (prefix top : string) (ns tok : pyval) (w : world) :
  let path := prefix +:+ "/" +:+ py_format ns +:+ "/" in
  let params : gmap string pyval :=
    if py_truthy tok then <["NextToken" := tok]> {[ "Path" := PStr path ]}
    else {[ "Path" := PStr path ]} in
  let w' := {| log := log w; ssm_calls := ssm_calls w ++ [GetParametersByPath params] |} in
  _get_parameter_values ssm json_loads prefix top ns tok w =
    match get_parameters_by_path ssm params with
    | Fails e => (Raise (LibError e), w')
    | Succeeds r =>
        match decode_list json_loads (Parameters r) with
        | Undecodable m => (Raise (LibError (JSONDecodeError m)), w')
        | Decoded ds =>
            (Return (match NextToken r with
                     | Some t => <["NextToken" := Token t]> {[ top := Documents ds ]}
                     | None => {[ top := Documents ds ]}
                     end), w')
        end
    end.
Proof.
  intros path params w'. unfold _get_parameter_values.
  fold path. fold params.
  unfold mbind, py_bind, record_call. cbn. fold w'.
  destruct (get_parameters_by_path ssm params) as [r|e]; cbn; [|reflexivity].
  rewrite decode_values_run.
  destruct (decode_list json_loads (Parameters r)); reflexivity.
Qed.

Lemma _get_parameter_value_run (prefix : string) (name ns : pyval) (w : world) :
  let key := prefix +:+ "/" +:+ py_format ns +:+ "/" +:+ py_format name in
  let w' := {| log := log w; ssm_calls := ssm_calls w ++ [GetParameter key] |} in
  _get_parameter_value ssm json_loads prefix name ns w =
    match get_parameter ssm key with
    | Fails e => (Raise (LibError e), w')
    | Succeeds r =>
        match json_loads (Value (Parameter_ r)) with
        | Undecodable m => (Raise (LibError (JSONDecodeError m)), w')
        | Decoded d => (Return d, w')
        end
    end.
Proof.
  intros key w'. unfold _get_parameter_value. fold key.
  unfold mbind, py_bind, record_call. cbn. fold w'.
  destruct (get_parameter ssm key) as [r|e]; cbn; [|reflexivity].
  destruct (json_loads (Value (Parameter_ r))); reflexivity.
Qed.

Lemma list_handler_run (c : category) (event : gmap string pyval) (w : world) :
  let ns := default (PStr "default") (event !! "Namespace") in
  let tok := default PNone (event !! "NextToken") in
  let w1 := {| log := log w ++ [INFO_lambda_metadata event]; ssm_calls := ssm_calls w |} in
  list_handler ssm json_loads c event w =
    match _get_parameter_values ssm json_loads
            (category_prefix c) (collection_key c) ns tok w1 with
    | (Return resp, w') => (Return resp, w')
    | (Raise e, w') =>
        (Raise e, {| log := log w' ++ [ERROR_processing_event event e];
                     ssm_calls := ssm_calls w' |})
    end.
Proof. destruct c; reflexivity. Qed.

Lemma get_handler_run (c : category) (event : gmap string pyval) (w : world) :
  let name := default (PStr "") (event !! name_field c) in
  let ns := default (PStr "default") (event !! "Namespace") in
  let msg := not_found_label c +:+ py_format ns +:+ "/" +:+ py_format name in
  let w1 := {| log := log w ++ [INFO_lambda_metadata event]; ssm_calls := ssm_calls w |} in
  get_handler ssm json_loads c event w =
    match _get_parameter_value ssm json_loads (category_prefix c) name ns w1 with
    | (Return d, w') => (Return d, w')
    | (Raise e, w') =>
        match e with
        | LibError (ClientError code _) =>
            if String.eqb code "ParameterNotFound" then
              (Raise (EMRProfileNotFoundError msg),
               {| log := log w' ++ [ERROR_text msg]; ssm_calls := ssm_calls w' |})
            else
              (Raise e, {| log := log w' ++ [ERROR_processing_event event e];
                           ssm_calls := ssm_calls w' |})
        | _ =>
            (Raise e, {| log := log w' ++ [ERROR_processing_event event e];
                         ssm_calls := ssm_calls w' |})
        end
    end.
Proof.
  destruct c; cbn zeta;
    unfold get_handler, get_profile_handler, get_configuration_handler,
      get_function_handler, mbind, py_bind, try_except, LOGGER_write;
    cbn [name_field category_prefix not_found_label];
    match goal with |- context [_get_parameter_value _ _ ?p ?n ?m ?w] =>
      destruct (_get_parameter_value ssm json_loads p n m w) as [[d|e] w'] end;
    try reflexivity;
    destruct e as [[code m|m|d]| | |]; try reflexivity;
    cbn; destruct (String.eqb code "ParameterNotFound"); reflexivity.
Qed.

(** *** Calls made *)

Lemma _get_parameter_values_path (prefix top : string) (ns tok : pyval) (w : world) :
  queried_path w (snd (_get_parameter_values ssm json_loads prefix top ns tok w))
    (prefix +:+ "/" +:+ py_format ns +:+ "/").
Proof.
  rewrite _get_parameter_values_run. cbn zeta.
  match goal with |- context [GetParametersByPath ?p] => exists p end.
  split.
  - destruct (get_parameters_by_path ssm _) as [r|e]; [|reflexivity].
    destruct (decode_list json_loads (Parameters r)); reflexivity.
  - destruct (py_truthy tok); [rewrite lookup_insert_ne by done|];
      apply lookup_singleton_eq.
Qed.

Lemma _get_parameter_value_key (prefix : string) (name ns : pyval) (w : world) :
  fetched_key w (snd (_get_parameter_value ssm json_loads prefix name ns w))
    (prefix +:+ "/" +:+ py_format ns +:+ "/" +:+ py_format name).
Proof.
  rewrite _get_parameter_value_run. cbn zeta. unfold fetched_key.
  destruct (get_parameter ssm _) as [r|e]; [|reflexivity].
  destruct (json_loads (Value (Parameter_ r))); reflexivity.
Qed.

Lemma list_handler_path (c : category) (event : gmap string pyval) (w : world) :
  queried_path w (snd (list_handler ssm json_loads c event w))
    (category_prefix c +:+ "/"
       +:+ py_format (default (PStr "default") (event !! "Namespace")) +:+ "/").
Proof.
  rewrite list_handler_run. cbn zeta.
  match goal with |- context [_get_parameter_values _ _ ?p ?t ?n ?k ?w1] =>
    pose proof (_get_parameter_values_path p t n k w1) as (params & Hc & Hp);
    destruct (_get_parameter_values ssm json_loads p t n k w1) as [[resp|e] w']
  end; exists params; split; assumption.
Qed.

Lemma get_handler_key (c : category) (event : gmap string pyval) (w : world) :
  fetched_key w (snd (get_handler ssm json_loads c event w))
    (category_prefix c +:+ "/"
       +:+ py_format (default (PStr "default") (event !! "Namespace")) +:+ "/"
       +:+ py_format (default (PStr "") (event !! name_field c))).
Proof.
  rewrite get_handler_run. cbn zeta.
  match goal with |- context [_get_parameter_value _ _ ?p ?n ?k ?w1] =>
    pose proof (_get_parameter_value_key p n k w1) as Hk;
    destruct (_get_parameter_value ssm json_loads p n k w1) as [[d|e] w']
  end; unfold fetched_key in *; cbn in *; [assumption|].
  destruct e as [[code m|m|d]| | |]; try assumption.
  destruct (String.eqb code "ParameterNotFound"); assumption.
Qed.

End Runs.

(** ** Strings: prefixes of composed keys *)

Lemma append_cons (x : ascii) (a b : string) : String x a +:+ b = String x (a +:+ b).
Proof. reflexivity. Qed.

Lemma append_nil (b : string) : "" +:+ b = b.
Proof. reflexivity. Qed.

Lemma append_assoc (a b c : string) : (a +:+ b) +:+ c = a +:+ b +:+ c.
Proof.
  induction a as [|x a IH]; [reflexivity|].
  rewrite !append_cons, IH. reflexivity.
Qed.

Lemma append_nil_r (a : string) : a +:+ "" = a.
Proof.
  induction a as [|x a IH]; [reflexivity|].
  rewrite append_cons, IH. reflexivity.
Qed.

Lemma prefix_cons (x y : ascii) (a b : string) :
  String.prefix (String x a) (String y b)
  = if ascii_dec x y then String.prefix a b else false.
Proof. reflexivity. Qed.

Lemma prefix_cons_same (x : ascii) (a b : string) :
  String.prefix (String x a) (String x b) = String.prefix a b.
Proof. rewrite prefix_cons. destruct (ascii_dec x x); [reflexivity | contradiction]. Qed.

Lemma prefix_nil (s : string) : String.prefix "" s = true.
Proof. destruct s; reflexivity. Qed.

Ltac push_append := rewrite ?append_cons, ?append_nil in *.

Lemma prefix_app_cancel (a b c : string) :
  String.prefix (a +:+ b) (a +:+ c) = String.prefix b c.
Proof.
  induction a as [|x a IH]; [reflexivity|].
  push_append. rewrite prefix_cons_same. exact IH.
Qed.

Lemma sibling_not_under (ns sibling rest : string) :
  String.prefix ns sibling = true →
  sibling ≠ ns →
  no_separator sibling = true →
  String.prefix (ns +:+ "/") (sibling +:+ "/" +:+ rest) = false.
Proof.
  revert sibling.
  induction ns as [|x ns IH]; intros [|y sibling] Hpre Hne Hsep; push_append.
  - contradiction.
  - cbn [no_separator] in Hsep. apply andb_true_iff in Hsep as [Hy _].
    rewrite prefix_cons.
    destruct (ascii_dec "/" y) as [<-|_]; [discriminate Hy | reflexivity].
  - discriminate Hpre.
  - rewrite prefix_cons in Hpre |- *.
    destruct (ascii_dec x y) as [<-|_]; [|reflexivity].
    cbn [no_separator] in Hsep. apply andb_true_iff in Hsep as [_ Hsep].
    apply IH; [assumption | congruence | assumption].
Qed.

(** Without the closing separator the sibling would be matched. *)
Lemma sibling_under_without_separator (prefix ns more rest : string) :
  String.prefix (prefix +:+ "/" +:+ ns) (prefix +:+ "/" +:+ (ns +:+ more) +:+ "/" +:+ rest)
  = true.
Proof.
  rewrite prefix_app_cancel, (prefix_app_cancel "/").
  induction ns as [|x ns IH]; [apply prefix_nil|].
  push_append. rewrite prefix_cons_same. exact IH.
Qed.

(** ** The claims *)

(** C1 (the code departs from it).  The claim: whenever the service answers
    a get-style request with the key-does-not-exist condition, the handler
    raises the not-found error of its own category.  Run on an empty store,
    the Configuration and Function get handlers both raise
    [EMRProfileNotFoundError], the class of the Profile category, and not
    [ClusterConfigurationNotFoundError] or [EMRLaunchFunctionNotFoundError];
    the message does carry namespace and name. *)
Theorem get_handlers_raise_profile_class :
  fst (get_configuration_handler (store_client []) literal_loads
         {[ "ConfigurationName" := PStr "missing" ]} empty_world)
    = Raise (EMRProfileNotFoundError "ConfigurationNotFound: default/missing")
  ∧ fst (get_configuration_handler (store_client []) literal_loads
           {[ "ConfigurationName" := PStr "missing" ]} empty_world)
    ≠ Raise (category_not_found_error Configuration "ConfigurationNotFound: default/missing")
  ∧ fst (get_function_handler (store_client []) literal_loads
           {[ "FunctionName" := PStr "missing" ]} empty_world)
    = Raise (EMRProfileNotFoundError "FunctionNotFound: default/missing")
  ∧ fst (get_function_handler (store_client []) literal_loads
           {[ "FunctionName" := PStr "missing" ]} empty_world)
    ≠ Raise (category_not_found_error Function "FunctionNotFound: default/missing").
Proof.
  repeat split; try (vm_compute; reflexivity); vm_compute; discriminate.
Qed.

(** On the key-does-not-exist condition every get handler raises
    [EMRProfileNotFoundError] with the message [label namespace/name]. *)
Lemma get_handler_not_found {Doc : Type} (ssm : ssm_client)
    (json_loads : string → decoding Doc) (c : category)
    (event : gmap string pyval) (w : world) (m : string) :
  let name := py_format (default (PStr "") (event !! name_field c)) in
  let ns := py_format (default (PStr "default") (event !! "Namespace")) in
  get_parameter ssm (category_prefix c +:+ "/" +:+ ns +:+ "/" +:+ name)
    = Fails (ClientError "ParameterNotFound" m) →
  fst (get_handler ssm json_loads c event w)
    = Raise (EMRProfileNotFoundError (not_found_label c +:+ ns +:+ "/" +:+ name)).
Proof.
  intros name ns Hget.
  rewrite get_handler_run, _get_parameter_value_run. cbn zeta.
  fold name ns. rewrite Hget. reflexivity.
Qed.

Lemma not_found_message_contains (label ns name : string) :
  contains (label +:+ ns +:+ "/" +:+ name) ns
  ∧ contains (label +:+ ns +:+ "/" +:+ name) name.
Proof.
  split.
  - exists label, ("/" +:+ name). reflexivity.
  - exists (label +:+ ns +:+ "/"), "".
    rewrite append_nil_r, !append_assoc. reflexivity.
Qed.

(** C2, as the specification states it, fails: the constants are not the
    [/config/...] strings. *)
Lemma prefix_constants_are_not_config :
  ¬ (PROFILES_SSM_PARAMETER_PREFIX = "/config/profiles"
     ∧ CONFIGURATIONS_SSM_PARAMETER_PREFIX = "/config/cluster-configurations"
     ∧ FUNCTIONS_SSM_PARAMETER_PREFIX = "/config/launch-functions").
Proof. intros (H & _ & _). discriminate H. Qed.

(** C2 (amended).  The three prefix constants are [/emr_launch/emr_profiles]
    for Profile, [/emr_launch/cluster_configurations] for Configuration and
    [/emr_launch/emr_launch_functions] for Function, and each of the six
    handlers builds the path or key of its one call to the service from the
    constant of its category. *)
Theorem prefix_constants_used {Doc : Type} (ssm : ssm_client)
    (json_loads : string → decoding Doc) (event : gmap string pyval) (w : world) :
  let ns := py_format (default (PStr "default") (event !! "Namespace")) in
  let name f := py_format (default (PStr "") (event !! f)) in
  (PROFILES_SSM_PARAMETER_PREFIX = "/emr_launch/emr_profiles"
   ∧ CONFIGURATIONS_SSM_PARAMETER_PREFIX = "/emr_launch/cluster_configurations"
   ∧ FUNCTIONS_SSM_PARAMETER_PREFIX = "/emr_launch/emr_launch_functions")
  ∧ queried_path w (snd (get_profiles_handler ssm json_loads event w))
      ("/emr_launch/emr_profiles" +:+ "/" +:+ ns +:+ "/")
  ∧ queried_path w (snd (get_configurations_handler ssm json_loads event w))
      ("/emr_launch/cluster_configurations" +:+ "/" +:+ ns +:+ "/")
  ∧ queried_path w (snd (get_functions_handler ssm json_loads event w))
      ("/emr_launch/emr_launch_functions" +:+ "/" +:+ ns +:+ "/")
  ∧ fetched_key w (snd (get_profile_handler ssm json_loads event w))
      ("/emr_launch/emr_profiles" +:+ "/" +:+ ns +:+ "/" +:+ name "ProfileName")
  ∧ fetched_key w (snd (get_configuration_handler ssm json_loads event w))
      ("/emr_launch/cluster_configurations" +:+ "/" +:+ ns +:+ "/"
         +:+ name "ConfigurationName")
  ∧ fetched_key w (snd (get_function_handler ssm json_loads event w))
      ("/emr_launch/emr_launch_functions" +:+ "/" +:+ ns +:+ "/" +:+ name "FunctionName").
Proof.
  intros ns name. split; [repeat split|].
  split; [exact (list_handler_path ssm json_loads Profile event w)|].
  split; [exact (list_handler_path ssm json_loads Configuration event w)|].
  split; [exact (list_handler_path ssm json_loads Function event w)|].
  split; [exact (get_handler_key ssm json_loads Profile event w)|].
  split; [exact (get_handler_key ssm json_loads Configuration event w)|].
  exact (get_handler_key ssm json_loads Function event w).
Qed.

(** C3.  The path of a list query is exactly [prefix/namespace/], closing
    separator included, and no key of a sibling namespace whose name extends
    this namespace's name starts with that path. *)
Theorem list_path_is_one_namespace_level {Doc : Type} (ssm : ssm_client)
    (json_loads : string → decoding Doc) (prefix top : string) (ns tok : pyval)
    (w : world) :
  let path := prefix +:+ "/" +:+ py_format ns +:+ "/" in
  queried_path w (snd (_get_parameter_values ssm json_loads prefix top ns tok w)) path
  ∧ ∀ sibling name : string,
      String.prefix (py_format ns) sibling = true →
      sibling ≠ py_format ns →
      no_separator sibling = true →
      String.prefix path (prefix +:+ "/" +:+ sibling +:+ "/" +:+ name) = false.
Proof.
  intros path. split; [apply _get_parameter_values_path|].
  intros sibling name Hpre Hne Hsep. unfold path.
  rewrite prefix_app_cancel, (prefix_app_cancel "/").
  apply sibling_not_under; assumption.
Qed.

Lemma list_path_is_one_namespace_level_witness :
  String.prefix "default" "default2" = true
  ∧ no_separator "default2" = true
  ∧ queried_path empty_world
      (snd (_get_parameter_values (store_client []) literal_loads
              "/emr_launch/emr_profiles" "EMRProfiles" (PStr "default") PNone empty_world))
      "/emr_launch/emr_profiles/default/"
  ∧ String.prefix "/emr_launch/emr_profiles/default/"
      "/emr_launch/emr_profiles/default2/small" = false.
Proof.
  split; [reflexivity|]. split; [reflexivity|].
  pose proof (list_path_is_one_namespace_level (store_client []) literal_loads
                "/emr_launch/emr_profiles" "EMRProfiles" (PStr "default") PNone
                empty_world) as [Hpath Hsib].
  split; [exact Hpath|].
  apply (Hsib "default2" "small"); [reflexivity | discriminate | reflexivity].
Defined.

(** The collection key of a category is never the token key. *)
Lemma collection_key_not_token (c : category) : "NextToken" ≠ collection_key c.
Proof. destruct c; discriminate. Qed.

Lemma list_response_collection {Doc : Type} (c : category) (ds : list Doc)
    (token : option string) :
  (match token with
   | Some t => <["NextToken" := Token t]> {[ collection_key c := Documents ds ]}
   | None => {[ collection_key c := Documents ds ]}
   end : gmap string (respval Doc)) !! collection_key c = Some (Documents ds).
Proof.
  destruct token as [t|].
  - rewrite lookup_insert_ne by apply collection_key_not_token.
    apply lookup_singleton_eq.
  - apply lookup_singleton_eq.
Qed.

Lemma list_response_token {Doc : Type} (c : category) (ds : list Doc)
    (token : option string) :
  (match token with
   | Some t => <["NextToken" := Token t]> {[ collection_key c := Documents ds ]}
   | None => {[ collection_key c := Documents ds ]}
   end : gmap string (respval Doc)) !! "NextToken" = Token <$> token.
Proof.
  destruct token as [t|]; cbn.
  - apply lookup_insert_eq.
  - apply lookup_singleton_ne. intros H. symmetry in H.
    exact (collection_key_not_token c H).
Qed.

(** C4.  A list handler never ends with a not-found error of the module;
    when the service returns no parameter the handler returns a response
    whose collection is empty; and when the service fails the handler logs
    the failure and raises that same exception. *)
Theorem list_handlers_never_not_found {Doc : Type} (ssm : ssm_client)
    (json_loads : string → decoding Doc) (c : category)
    (event : gmap string pyval) (w : world) :
  ∃ params,
    ssm_calls (snd (list_handler ssm json_loads c event w))
      = (ssm_calls w ++ [GetParametersByPath params])%list
    ∧ (∀ e, fst (list_handler ssm json_loads c event w) = Raise e →
            is_not_found_error e = false)
    ∧ (∀ r, get_parameters_by_path ssm params = Succeeds r →
            Parameters r = [] →
            ∃ resp, fst (list_handler ssm json_loads c event w) = Return resp
                    ∧ resp !! collection_key c = Some (Documents []))
    ∧ (∀ e, get_parameters_by_path ssm params = Fails e →
            fst (list_handler ssm json_loads c event w) = Raise (LibError e)
            ∧ log (snd (list_handler ssm json_loads c event w))
                = (log w ++ [INFO_lambda_metadata event;
                             ERROR_processing_event event (LibError e)])%list).
Proof.
  rewrite list_handler_run, _get_parameter_values_run. cbn zeta.
  match goal with |- context [GetParametersByPath ?p] => set (params := p) end.
  exists params.
  destruct (get_parameters_by_path ssm params) as [r|e] eqn:Hcall.
  - destruct (decode_list json_loads (Parameters r)) as [ds|e] eqn:Hdec; cbn.
    + split; [reflexivity|]. split; [intros e [=]|].
      split; [|intros e [=]].
      intros r' [= <-] Hnil. rewrite Hnil in Hdec. cbn in Hdec.
      injection Hdec as <-.
      eexists. split; [reflexivity|]. apply list_response_collection.
    + split; [reflexivity|]. split; [intros e' [= <-]; reflexivity|].
      split; [|intros e' [=]].
      intros r' [= <-] Hnil. rewrite Hnil in Hdec. discriminate Hdec.
  - cbn. split; [reflexivity|]. split; [intros e' [= <-]; reflexivity|].
    split; [intros r [=]|].
    intros e' [= <-]. split; [reflexivity|].
    rewrite <- app_assoc. reflexivity.
Qed.

Lemma list_handlers_never_not_found_witness :
  (∃ resp, fst (get_profiles_handler
                  (page_client {| Parameters := []; NextToken := None |})
                  literal_loads ∅ empty_world) = Return resp
           ∧ resp !! "EMRProfiles" = Some (Documents []))
  ∧ fst (get_functions_handler
           (failing_client (ClientError "AccessDeniedException" "denied"))
           literal_loads {[ "Namespace" := PStr "team-a" ]} empty_world)
    = Raise (LibError (ClientError "AccessDeniedException" "denied")).
Proof.
  split.
  - destruct (list_handlers_never_not_found
                (page_client {| Parameters := []; NextToken := None |})
                literal_loads Profile ∅ empty_world)
      as (params & _ & _ & Hempty & _).
    apply (Hempty {| Parameters := []; NextToken := None |}); reflexivity.
  - destruct (list_handlers_never_not_found
                (failing_client (ClientError "AccessDeniedException" "denied"))
                literal_loads Function {[ "Namespace" := PStr "team-a" ]} empty_world)
      as (params & _ & _ & _ & Hfail).
    apply (Hfail (ClientError "AccessDeniedException" "denied")). reflexivity.
Defined.

(** C5.  The response of a list handler has a [NextToken] field exactly when
    the reply of the service has one, and then it is that same token. *)
Theorem next_token_passed_through {Doc : Type} (ssm : ssm_client)
    (json_loads : string → decoding Doc) (c : category)
    (event : gmap string pyval) (w : world) (resp : gmap string (respval Doc)) :
  fst (list_handler ssm json_loads c event w) = Return resp →
  ∃ params r,
    ssm_calls (snd (list_handler ssm json_loads c event w))
      = (ssm_calls w ++ [GetParametersByPath params])%list
    ∧ get_parameters_by_path ssm params = Succeeds r
    ∧ resp !! "NextToken" = Token <$> NextToken r.
Proof.
  rewrite list_handler_run, _get_parameter_values_run. cbn zeta.
  match goal with |- context [GetParametersByPath ?p] => set (params := p) end.
  destruct (get_parameters_by_path ssm params) as [r|e] eqn:Hcall; [|intros [=]].
  destruct (decode_list json_loads (Parameters r)) as [ds|e]; [|intros [=]].
  cbn. intros [= <-]. exists params, r.
  split; [reflexivity|]. split; [assumption|]. apply list_response_token.
Qed.

Lemma next_token_passed_through_witness :
  fst (get_configurations_handler
         (page_client {| Parameters := [ {| Name := "k"; Value := "true" |} ];
                         NextToken := Some "page-2" |})
         literal_loads ∅ empty_world)
    = Return (<["NextToken" := Token "page-2"]>
                {[ "ClusterConfigurations" := Documents [LTrue] ]})
  ∧ ∃ params r,
      ssm_calls (snd (get_configurations_handler
         (page_client {| Parameters := [ {| Name := "k"; Value := "true" |} ];
                         NextToken := Some "page-2" |})
         literal_loads ∅ empty_world))
        = (ssm_calls empty_world ++ [GetParametersByPath params])%list
      ∧ get_parameters_by_path
          (page_client {| Parameters := [ {| Name := "k"; Value := "true" |} ];
                          NextToken := Some "page-2" |}) params = Succeeds r
      ∧ (<["NextToken" := Token "page-2"]>
           {[ "ClusterConfigurations" := Documents [LTrue] ]}
         : gmap string (respval literal)) !! "NextToken" = Token <$> NextToken r.
Proof.
  split; [vm_compute; reflexivity|].
  apply (next_token_passed_through
           (page_client {| Parameters := [ {| Name := "k"; Value := "true" |} ];
                           NextToken := Some "page-2" |})
           literal_loads Configuration ∅ empty_world).
  vm_compute. reflexivity.
Defined.

(** C6.  With no [Namespace] field in the event, each of the six handlers
    builds its path or key with the namespace [default]. *)
Theorem namespace_defaults_to_default {Doc : Type} (ssm : ssm_client)
    (json_loads : string → decoding Doc) (c : category)
    (event : gmap string pyval) (w : world) :
  event !! "Namespace" = None →
  queried_path w (snd (list_handler ssm json_loads c event w))
    (category_prefix c +:+ "/" +:+ "default" +:+ "/")
  ∧ fetched_key w (snd (get_handler ssm json_loads c event w))
      (category_prefix c +:+ "/" +:+ "default" +:+ "/"
         +:+ py_format (default (PStr "") (event !! name_field c))).
Proof.
  intros Hns. split.
  - pose proof (list_handler_path ssm json_loads c event w) as H.
    rewrite Hns in H. exact H.
  - pose proof (get_handler_key ssm json_loads c event w) as H.
    rewrite Hns in H. exact H.
Qed.

Lemma namespace_defaults_to_default_witness :
  queried_path empty_world
    (snd (get_functions_handler (store_client []) literal_loads
            {[ "FunctionName" := PStr "launch" ]} empty_world))
    "/emr_launch/emr_launch_functions/default/"
  ∧ fetched_key empty_world
      (snd (get_function_handler (store_client []) literal_loads
              {[ "FunctionName" := PStr "launch" ]} empty_world))
      "/emr_launch/emr_launch_functions/default/launch".
Proof.
  exact (namespace_defaults_to_default (store_client []) literal_loads Function
           {[ "FunctionName" := PStr "launch" ]} empty_world eq_refl).
Defined.

(** C7.  A get-style call makes one fetch, of the exact key
    [prefix/namespace/name], and when the fetch and the decoding succeed it
    returns the decoded value itself; so does each get handler, with the
    prefix of its category and the name and namespace read from the event. *)
Theorem get_returns_decoded_document {Doc : Type} (ssm : ssm_client)
    (json_loads : string → decoding Doc) (prefix : string) (name ns : pyval)
    (c : category) (event : gmap string pyval) (w : world) :
  let key := prefix +:+ "/" +:+ py_format ns +:+ "/" +:+ py_format name in
  let event_key :=
    category_prefix c +:+ "/"
      +:+ py_format (default (PStr "default") (event !! "Namespace")) +:+ "/"
      +:+ py_format (default (PStr "") (event !! name_field c)) in
  (fetched_key w (snd (_get_parameter_value ssm json_loads prefix name ns w)) key
   ∧ ∀ r d, get_parameter ssm key = Succeeds r →
            json_loads (Value (Parameter_ r)) = Decoded d →
            fst (_get_parameter_value ssm json_loads prefix name ns w) = Return d)
  ∧ (fetched_key w (snd (get_handler ssm json_loads c event w)) event_key
     ∧ ∀ r d, get_parameter ssm event_key = Succeeds r →
              json_loads (Value (Parameter_ r)) = Decoded d →
              fst (get_handler ssm json_loads c event w) = Return d).
Proof.
  intros key event_key. split; split.
  - apply _get_parameter_value_key.
  - intros r d Hget Hdec. rewrite _get_parameter_value_run. cbn zeta.
    fold key. rewrite Hget, Hdec. reflexivity.
  - apply get_handler_key.
  - intros r d Hget Hdec.
    rewrite get_handler_run, _get_parameter_value_run. cbn zeta.
    fold event_key. rewrite Hget, Hdec. reflexivity.
Qed.

Lemma get_returns_decoded_document_witness :
  fst (_get_parameter_value
         (store_client [("/emr_launch/emr_profiles/default/small", "true")])
         literal_loads "/emr_launch/emr_profiles" (PStr "small") (PStr "default")
         empty_world) = Return LTrue
  ∧ fst (get_profile_handler
           (store_client [("/emr_launch/emr_profiles/default/small", "true")])
           literal_loads {[ "ProfileName" := PStr "small" ]} empty_world)
    = Return LTrue.
Proof.
  pose proof (get_returns_decoded_document
                (store_client [("/emr_launch/emr_profiles/default/small", "true")])
                literal_loads "/emr_launch/emr_profiles" (PStr "small") (PStr "default")
                Profile {[ "ProfileName" := PStr "small" ]} empty_world)
    as [[_ Hhelper] [_ Hhandler]].
  split.
  - apply (Hhelper {| Parameter_ :=
                        {| Name := "/emr_launch/emr_profiles/default/small";
                           Value := "true" |} |}); reflexivity.
  - apply (Hhandler {| Parameter_ :=
                         {| Name := "/emr_launch/emr_profiles/default/small";
                            Value := "true" |} |}); reflexivity.
Defined.

(** C8.  A list handler decodes every value of the reply, keeps the order of
    the reply, and returns the decoded sequence under the collection key of
    its category: the response holds [docs] there exactly when [docs] is,
    position by position, the decoding of the reply's values. *)
Theorem list_decodes_in_order {Doc : Type} (ssm : ssm_client)
    (json_loads : string → decoding Doc) (c : category)
    (event : gmap string pyval) (w : world) :
  ∃ params,
    ssm_calls (snd (list_handler ssm json_loads c event w))
      = (ssm_calls w ++ [GetParametersByPath params])%list
    ∧ (∀ r docs,
         get_parameters_by_path ssm params = Succeeds r →
         Forall2 (λ p d, json_loads (Value p) = Decoded d) (Parameters r) docs →
         ∃ resp, fst (list_handler ssm json_loads c event w) = Return resp
                 ∧ resp !! collection_key c = Some (Documents docs))
    ∧ (∀ resp,
         fst (list_handler ssm json_loads c event w) = Return resp →
         ∃ r docs,
           get_parameters_by_path ssm params = Succeeds r
           ∧ Forall2 (λ p d, json_loads (Value p) = Decoded d) (Parameters r) docs
           ∧ resp !! collection_key c = Some (Documents docs)).
Proof.
  rewrite list_handler_run, _get_parameter_values_run. cbn zeta.
  match goal with |- context [GetParametersByPath ?p] => set (params := p) end.
  exists params.
  destruct (get_parameters_by_path ssm params) as [r|e] eqn:Hcall.
  - destruct (decode_list json_loads (Parameters r)) as [ds|e] eqn:Hdec; cbn.
    + split; [reflexivity|]. split.
      * intros r' docs [= <-] Hall. apply decode_list_Forall2 in Hall.
        rewrite Hall in Hdec. injection Hdec as <-.
        eexists. split; [reflexivity|]. apply list_response_collection.
      * intros resp [= <-]. exists r, ds. split; [reflexivity|].
        split; [apply decode_list_Forall2; assumption|].
        apply list_response_collection.
    + split; [reflexivity|]. split; [|intros resp [=]].
      intros r' docs [= <-] Hall. apply decode_list_Forall2 in Hall.
      rewrite Hall in Hdec. discriminate Hdec.
  - cbn. split; [reflexivity|]. split; [intros r docs [=]|intros resp [=]].
Qed.

Lemma list_decodes_in_order_witness :
  ∃ resp,
    fst (get_profiles_handler
           (page_client {| Parameters := [ {| Name := "b"; Value := "true" |};
                                           {| Name := "a"; Value := "null" |};
                                           {| Name := "c"; Value := "true" |} ];
                           NextToken := None |})
           literal_loads ∅ empty_world) = Return resp
    ∧ resp !! "EMRProfiles" = Some (Documents [LTrue; LNull; LTrue]).
Proof.
  destruct (list_decodes_in_order
              (page_client {| Parameters := [ {| Name := "b"; Value := "true" |};
                                              {| Name := "a"; Value := "null" |};
                                              {| Name := "c"; Value := "true" |} ];
                              NextToken := None |})
              literal_loads Profile ∅ empty_world)
    as (params & _ & Hdecode & _).
  apply (Hdecode {| Parameters := [ {| Name := "b"; Value := "true" |};
                                    {| Name := "a"; Value := "null" |};
                                    {| Name := "c"; Value := "true" |} ];
                    NextToken := None |}).
  - reflexivity.
  - repeat constructor.
Defined.

(** C9.  A get handler does not reject an empty name: it fetches the key
    [prefix/namespace/], with the empty name as last segment.  If the service
    reports that key as missing the handler ends with a not-found error whose
    message names [namespace/], and a not-found error only ever comes from
    that report of the service. *)
Theorem empty_name_reaches_the_service {Doc : Type} (ssm : ssm_client)
    (json_loads : string → decoding Doc) (c : category)
    (event : gmap string pyval) (w : world) :
  default (PStr "") (event !! name_field c) = PStr "" →
  let ns := py_format (default (PStr "default") (event !! "Namespace")) in
  let key := category_prefix c +:+ "/" +:+ ns +:+ "/" in
  fetched_key w (snd (get_handler ssm json_loads c event w)) key
  ∧ (∀ m, get_parameter ssm key = Fails (ClientError "ParameterNotFound" m) →
          ∃ e, fst (get_handler ssm json_loads c event w) = Raise e
               ∧ is_not_found_error e = true
               ∧ exn_message e = Some (not_found_label c +:+ ns +:+ "/"))
  ∧ (∀ e, fst (get_handler ssm json_loads c event w) = Raise e →
          is_not_found_error e = true →
          ∃ m, get_parameter ssm key = Fails (ClientError "ParameterNotFound" m)).
Proof.
  intros Hname ns key.
  pose proof (get_handler_key ssm json_loads c event w) as Hkey.
  rewrite get_handler_run, _get_parameter_value_run in *. cbn zeta in *.
  rewrite Hname in *. cbn [py_format] in *.
  change ("/" +:+ "") with "/" in *. fold ns in Hkey |- *. fold key in Hkey |- *.
  split; [exact Hkey|]. clear Hkey. split.
  - intros m Hget. rewrite Hget. cbn. eexists.
    split; [reflexivity|]. split; reflexivity.
  - intros e. destruct (get_parameter ssm key) as [r|[code m|m|d]] eqn:Hget.
    + destruct (json_loads (Value (Parameter_ r))); cbn.
      * intros [=].
      * intros [= <-]. discriminate.
    + cbn. destruct (String.eqb code "ParameterNotFound") eqn:Hcode; cbn.
      * intros _ _. apply String.eqb_eq in Hcode as ->. exists m. reflexivity.
      * intros [= <-]. discriminate.
    + cbn. intros [= <-]. discriminate.
    + cbn. intros [= <-]. discriminate.
Qed.

Lemma empty_name_reaches_the_service_witness :
  fetched_key empty_world
    (snd (get_profile_handler (store_client []) literal_loads
            {[ "ProfileName" := PStr "" ]} empty_world))
    "/emr_launch/emr_profiles/default/"
  ∧ ∃ e, fst (get_profile_handler (store_client []) literal_loads
                {[ "ProfileName" := PStr "" ]} empty_world) = Raise e
         ∧ is_not_found_error e = true
         ∧ exn_message e = Some "ProfileNotFound: default/".
Proof.
  pose proof (empty_name_reaches_the_service (store_client []) literal_loads Profile
                {[ "ProfileName" := PStr "" ]} empty_world eq_refl)
    as (Hkey & Hmissing & _).
  split; [exact Hkey|].
  exact (Hmissing "/emr_launch/emr_profiles/default/" eq_refl).
Defined.

(** C10.  A token that is falsy (the empty string, as well as [None]) is left
    out of the query: the call carries the path alone and the helper runs
    exactly as with no token.  A list handler given such a token in the event
    queries the service and ends as it does for the event without the
    field. *)
Theorem falsy_token_is_omitted {Doc : Type} (ssm : ssm_client)
    (json_loads : string → decoding Doc) (prefix top : string) (ns tok : pyval)
    (c : category) (event : gmap string pyval) (w : world) :
  py_truthy tok = false →
  ssm_calls (snd (_get_parameter_values ssm json_loads prefix top ns tok w))
    = (ssm_calls w
         ++ [GetParametersByPath
               {[ "Path" := PStr (prefix +:+ "/" +:+ py_format ns +:+ "/") ]}])%list
  ∧ _get_parameter_values ssm json_loads prefix top ns tok w
    = _get_parameter_values ssm json_loads prefix top ns PNone w
  ∧ (event !! "NextToken" = Some tok →
     fst (list_handler ssm json_loads c event w)
       = fst (list_handler ssm json_loads c (delete "NextToken" event) w)
     ∧ ssm_calls (snd (list_handler ssm json_loads c event w))
       = ssm_calls (snd (list_handler ssm json_loads c (delete "NextToken" event) w))).
Proof.
  intros Hfalsy. split; [|split].
  - rewrite _get_parameter_values_run. cbn zeta. rewrite Hfalsy.
    destruct (get_parameters_by_path ssm _) as [r|e]; [|reflexivity].
    destruct (decode_list json_loads (Parameters r)); reflexivity.
  - rewrite !_get_parameter_values_run. cbn zeta. rewrite Hfalsy. reflexivity.
  - intros Htok. rewrite !list_handler_run, !_get_parameter_values_run. cbn zeta.
    rewrite lookup_delete_eq, lookup_delete_ne by done.
    rewrite Htok. cbn [default from_option id py_truthy]. rewrite Hfalsy.
    destruct (get_parameters_by_path ssm _) as [r|e]; [|split; reflexivity].
    destruct (decode_list json_loads (Parameters r)); split; reflexivity.
Qed.

Lemma falsy_token_is_omitted_witness :
  ssm_calls (snd (_get_parameter_values (store_client []) literal_loads
                    "/emr_launch/emr_profiles" "EMRProfiles" (PStr "default") (PStr "")
                    empty_world))
    = [GetParametersByPath {[ "Path" := PStr "/emr_launch/emr_profiles/default/" ]}]
  ∧ fst (get_profiles_handler (store_client []) literal_loads
           {[ "NextToken" := PStr "" ]} empty_world)
    = fst (get_profiles_handler (store_client []) literal_loads ∅ empty_world).
Proof.
  pose proof (falsy_token_is_omitted (store_client []) literal_loads
                "/emr_launch/emr_profiles" "EMRProfiles" (PStr "default") (PStr "")
                Profile {[ "NextToken" := PStr "" ]} empty_world eq_refl)
    as (Hcall & _ & Hhandler).
  split; [exact Hcall|].
  exact (proj1 (Hhandler eq_refl)).
Defined.

(** A truthy token is sent. *)
Lemma truthy_token_is_sent {Doc : Type} (ssm : ssm_client)
    (json_loads : string → decoding Doc) (prefix top : string) (ns tok : pyval)
    (w : world) :
  py_truthy tok = true →
  ssm_calls (snd (_get_parameter_values ssm json_loads prefix top ns tok w))
    = (ssm_calls w
         ++ [GetParametersByPath
               (<["NextToken" := tok]>
                  {[ "Path" := PStr (prefix +:+ "/" +:+ py_format ns +:+ "/") ]})])%list.
Proof.
  intros Htruthy. rewrite _get_parameter_values_run. cbn zeta. rewrite Htruthy.
  destruct (get_parameters_by_path ssm _) as [r|e]; [|reflexivity].
  destruct (decode_list json_loads (Parameters r)); reflexivity.
Qed.

(** ** Further properties of the handlers *)

(** *** Failures of a get handler *)

(** X1.  A failure of the fetch that is not a [ClientError] with the exact
    code [ParameterNotFound] is not translated: the get handler logs it with
    the event and raises that same exception. *)
Theorem get_handler_reraises_other_failures {Doc : Type} (ssm : ssm_client)
    (json_loads : string → decoding Doc) (c : category)
    (event : gmap string pyval) (w : world) (e : lib_error) :
  get_parameter ssm
    (category_prefix c +:+ "/"
       +:+ py_format (default (PStr "default") (event !! "Namespace")) +:+ "/"
       +:+ py_format (default (PStr "") (event !! name_field c))) = Fails e →
  (∀ m, e ≠ ClientError "ParameterNotFound" m) →
  fst (get_handler ssm json_loads c event w) = Raise (LibError e)
  ∧ log (snd (get_handler ssm json_loads c event w))
    = (log w ++ [INFO_lambda_metadata event;
                 ERROR_processing_event event (LibError e)])%list.
Proof.
  intros Hget Hother.
  rewrite get_handler_run, _get_parameter_value_run. cbn zeta.
  rewrite Hget. destruct e as [code m|m|d]; cbn.
  - destruct (String.eqb code "ParameterNotFound") eqn:Hcode.
    + apply String.eqb_eq in Hcode as ->. destruct (Hother m). reflexivity.
    + cbn. rewrite <- app_assoc. split; reflexivity.
  - rewrite <- app_assoc. split; reflexivity.
  - rewrite <- app_assoc. split; reflexivity.
Qed.

Lemma get_handler_reraises_other_failures_witness :
  fst (get_configuration_handler
         (failing_client (ClientError "parameternotfound" "wrong case"))
         literal_loads {[ "ConfigurationName" := PStr "c1" ]} empty_world)
    = Raise (LibError (ClientError "parameternotfound" "wrong case"))
  ∧ log (snd (get_configuration_handler
                (failing_client (ClientError "parameternotfound" "wrong case"))
                literal_loads {[ "ConfigurationName" := PStr "c1" ]} empty_world))
    = [INFO_lambda_metadata {[ "ConfigurationName" := PStr "c1" ]};
       ERROR_processing_event {[ "ConfigurationName" := PStr "c1" ]}
         (LibError (ClientError "parameternotfound" "wrong case"))].
Proof.
  apply (get_handler_reraises_other_failures
           (failing_client (ClientError "parameternotfound" "wrong case"))
           literal_loads Configuration {[ "ConfigurationName" := PStr "c1" ]}
           empty_world (ClientError "parameternotfound" "wrong case")).
  - reflexivity.
  - intros m. discriminate.
Defined.

(** X2.  When the fetch succeeds but the stored text is not JSON, the get
    handler raises the decoding error of [json.loads], logged with the
    event; it is not reported as a missing key. *)
Theorem get_handler_undecodable_document {Doc : Type} (ssm : ssm_client)
    (json_loads : string → decoding Doc) (c : category)
    (event : gmap string pyval) (w : world) (r : get_parameter_result)
    (m : string) :
  get_parameter ssm
    (category_prefix c +:+ "/"
       +:+ py_format (default (PStr "default") (event !! "Namespace")) +:+ "/"
       +:+ py_format (default (PStr "") (event !! name_field c))) = Succeeds r →
  json_loads (Value (Parameter_ r)) = Undecodable m →
  fst (get_handler ssm json_loads c event w) = Raise (LibError (JSONDecodeError m))
  ∧ log (snd (get_handler ssm json_loads c event w))
    = (log w ++ [INFO_lambda_metadata event;
                 ERROR_processing_event event (LibError (JSONDecodeError m))])%list.
Proof.
  intros Hget Hdec.
  rewrite get_handler_run, _get_parameter_value_run. cbn zeta.
  rewrite Hget, Hdec. cbn. rewrite <- app_assoc. split; reflexivity.
Qed.

Lemma get_handler_undecodable_document_witness :
  fst (get_profile_handler
         (store_client [("/emr_launch/emr_profiles/default/small", "{type:")])
         literal_loads {[ "ProfileName" := PStr "small" ]} empty_world)
    = Raise (LibError (JSONDecodeError "Expecting value")).
Proof.
  apply (get_handler_undecodable_document
           (store_client [("/emr_launch/emr_profiles/default/small", "{type:")])
           literal_loads Profile {[ "ProfileName" := PStr "small" ]} empty_world
           {| Parameter_ := {| Name := "/emr_launch/emr_profiles/default/small";
                               Value := "{type:" |} |} "Expecting value");
    reflexivity.
Defined.

(** X3.  When the service reports the key as missing, the exception of the
    get handler is one of the module's not-found errors, its message is the
    category's label followed by [namespace/name], so it contains both, and
    that same message is the one error record written to the log. *)
Theorem not_found_message_names_namespace_and_name {Doc : Type} (ssm : ssm_client)
    (json_loads : string → decoding Doc) (c : category)
    (event : gmap string pyval) (w : world) (m : string) :
  let name := py_format (default (PStr "") (event !! name_field c)) in
  let ns := py_format (default (PStr "default") (event !! "Namespace")) in
  get_parameter ssm (category_prefix c +:+ "/" +:+ ns +:+ "/" +:+ name)
    = Fails (ClientError "ParameterNotFound" m) →
  ∃ e msg,
    fst (get_handler ssm json_loads c event w) = Raise e
    ∧ is_not_found_error e = true
    ∧ exn_message e = Some msg
    ∧ msg = not_found_label c +:+ ns +:+ "/" +:+ name
    ∧ contains msg ns ∧ contains msg name
    ∧ log (snd (get_handler ssm json_loads c event w))
      = (log w ++ [INFO_lambda_metadata event; ERROR_text msg])%list.
Proof.
  intros name ns Hget.
  rewrite get_handler_run, _get_parameter_value_run. cbn zeta.
  fold name ns. rewrite Hget. cbn.
  eexists. exists (not_found_label c +:+ ns +:+ "/" +:+ name).
  split; [reflexivity|]. split; [reflexivity|]. split; [reflexivity|].
  split; [reflexivity|].
  split; [apply not_found_message_contains|].
  split; [apply not_found_message_contains|].
  rewrite <- app_assoc. reflexivity.
Qed.

Lemma not_found_message_names_namespace_and_name_witness :
  ∃ e msg,
    fst (get_function_handler (store_client []) literal_loads
           {[ "FunctionName" := PStr "launch"; "Namespace" := PStr "team-a" ]}
           empty_world) = Raise e
    ∧ is_not_found_error e = true
    ∧ exn_message e = Some msg
    ∧ msg = "FunctionNotFound: team-a/launch"
    ∧ contains msg "team-a" ∧ contains msg "launch"
    ∧ log (snd (get_function_handler (store_client []) literal_loads
                  {[ "FunctionName" := PStr "launch"; "Namespace" := PStr "team-a" ]}
                  empty_world))
      = [INFO_lambda_metadata
           {[ "FunctionName" := PStr "launch"; "Namespace" := PStr "team-a" ]};
         ERROR_text msg].
Proof.
  exact (not_found_message_names_namespace_and_name (store_client []) literal_loads
           Function {[ "FunctionName" := PStr "launch"; "Namespace" := PStr "team-a" ]}
           empty_world "/emr_launch/emr_launch_functions/team-a/launch" eq_refl).
Defined.

(** *** What the handlers write to the log *)

(** X4.  A list handler appends to the log the metadata record of the event
    and, only when it raises, one error record that holds the event and the
    exception it raises. *)
Theorem list_handler_log {Doc : Type} (ssm : ssm_client)
    (json_loads : string → decoding Doc) (c : category)
    (event : gmap string pyval) (w : world) :
  log (snd (list_handler ssm json_loads c event w))
  = (log w ++ INFO_lambda_metadata event ::
       match fst (list_handler ssm json_loads c event w) with
       | Return _ => []
       | Raise e => [ERROR_processing_event event e]
       end)%list.
Proof.
  rewrite list_handler_run, _get_parameter_values_run. cbn zeta.
  destruct (get_parameters_by_path ssm _) as [r|e]; cbn.
  - destruct (decode_list json_loads (Parameters r)); cbn;
      [reflexivity | rewrite <- app_assoc; reflexivity].
  - rewrite <- app_assoc. reflexivity.
Qed.

(** X5.  A get handler appends to the log the metadata record of the event
    and, only when it raises, one error record: the message of the not-found
    error when it raises one, the event and the exception otherwise. *)
Theorem get_handler_log {Doc : Type} (ssm : ssm_client)
    (json_loads : string → decoding Doc) (c : category)
    (event : gmap string pyval) (w : world) :
  log (snd (get_handler ssm json_loads c event w))
  = (log w ++ INFO_lambda_metadata event ::
       match fst (get_handler ssm json_loads c event w) with
       | Return _ => []
       | Raise e =>
           match exn_message e with
           | Some msg => [ERROR_text msg]
           | None => [ERROR_processing_event event e]
           end
       end)%list.
Proof.
  rewrite get_handler_run, _get_parameter_value_run. cbn zeta.
  destruct (get_parameter ssm _) as [r|[code m|m|d]]; cbn.
  - destruct (json_loads (Value (Parameter_ r))); cbn;
      [reflexivity | rewrite <- app_assoc; reflexivity].
  - destruct (String.eqb code "ParameterNotFound"); cbn;
      rewrite <- app_assoc; reflexivity.
  - rewrite <- app_assoc. reflexivity.
  - rewrite <- app_assoc. reflexivity.
Qed.

(** *** Decoding failures of a list handler *)

Lemma decode_list_first_failure {Doc : Type} (json_loads : string → decoding Doc)
    (good : list parameter) (docs : list Doc) (bad : parameter)
    (rest : list parameter) (m : string) :
  Forall2 (λ p d, json_loads (Value p) = Decoded d) good docs →
  json_loads (Value bad) = Undecodable m →
  decode_list json_loads (good ++ bad :: rest) = Undecodable m.
Proof.
  intros Hgood Hbad. induction Hgood as [|p d good docs Hp _ IH]; cbn.
  - rewrite Hbad. reflexivity.
  - rewrite Hp, IH. reflexivity.
Qed.

(** X6.  A list handler returns no partial result: when a value of the reply
    is not JSON, it raises the decoding error of the first such value, in
    the order of the reply, whatever the values after it, and logs it. *)
Theorem list_handler_first_undecodable {Doc : Type} (ssm : ssm_client)
    (json_loads : string → decoding Doc) (c : category)
    (event : gmap string pyval) (w : world) :
  ∃ params,
    ssm_calls (snd (list_handler ssm json_loads c event w))
      = (ssm_calls w ++ [GetParametersByPath params])%list
    ∧ ∀ r good docs bad rest m,
        get_parameters_by_path ssm params = Succeeds r →
        Parameters r = (good ++ bad :: rest)%list →
        Forall2 (λ p d, json_loads (Value p) = Decoded d) good docs →
        json_loads (Value bad) = Undecodable m →
        fst (list_handler ssm json_loads c event w)
          = Raise (LibError (JSONDecodeError m))
        ∧ log (snd (list_handler ssm json_loads c event w))
          = (log w ++ [INFO_lambda_metadata event;
                       ERROR_processing_event event
                         (LibError (JSONDecodeError m))])%list.
Proof.
  rewrite list_handler_run, _get_parameter_values_run. cbn zeta.
  match goal with |- context [GetParametersByPath ?p] => set (params := p) end.
  exists params. split.
  - destruct (get_parameters_by_path ssm params) as [r|e]; [|reflexivity].
    destruct (decode_list json_loads (Parameters r)); reflexivity.
  - intros r good docs bad rest m Hcall Hparams Hgood Hbad.
    rewrite Hcall, Hparams.
    rewrite (decode_list_first_failure json_loads good docs bad rest m Hgood Hbad).
    cbn. rewrite <- app_assoc. split; reflexivity.
Qed.

Lemma list_handler_first_undecodable_witness :
  fst (get_profiles_handler
         (page_client {| Parameters := [ {| Name := "a"; Value := "true" |};
                                         {| Name := "b"; Value := "tru" |};
                                         {| Name := "c"; Value := "null" |} ];
                         NextToken := Some "page-2" |})
         literal_loads ∅ empty_world)
  = Raise (LibError (JSONDecodeError "Expecting value")).
Proof.
  destruct (list_handler_first_undecodable
              (page_client {| Parameters := [ {| Name := "a"; Value := "true" |};
                                              {| Name := "b"; Value := "tru" |};
                                              {| Name := "c"; Value := "null" |} ];
                              NextToken := Some "page-2" |})
              literal_loads Profile ∅ empty_world) as (params & _ & Hfirst).
  apply (Hfirst {| Parameters := [ {| Name := "a"; Value := "true" |};
                                   {| Name := "b"; Value := "tru" |};
                                   {| Name := "c"; Value := "null" |} ];
                   NextToken := Some "page-2" |}
           [ {| Name := "a"; Value := "true" |} ] [LTrue]
           {| Name := "b"; Value := "tru" |}
           [ {| Name := "c"; Value := "null" |} ] "Expecting value").
  - reflexivity.
  - reflexivity.
  - repeat constructor.
  - reflexivity.
Defined.

(** *** Shape of a list response *)

(** X7.  A response of a list handler has no field besides the collection
    key of its category, which holds a list of documents, and [NextToken],
    which holds a token. *)
Theorem list_response_shape {Doc : Type} (ssm : ssm_client)
    (json_loads : string → decoding Doc) (c : category)
    (event : gmap string pyval) (w : world)
    (resp : gmap string (respval Doc)) (k : string) (v : respval Doc) :
  fst (list_handler ssm json_loads c event w) = Return resp →
  resp !! k = Some v →
  (k = collection_key c ∧ ∃ docs, v = Documents docs)
  ∨ (k = "NextToken" ∧ ∃ t, v = Token t).
Proof.
  rewrite list_handler_run, _get_parameter_values_run. cbn zeta.
  destruct (get_parameters_by_path ssm _) as [r|e]; [|intros [=]].
  destruct (decode_list json_loads (Parameters r)) as [ds|m]; [|intros [=]].
  cbn. intros [= <-]. destruct (NextToken r) as [t|].
  - rewrite lookup_insert. case_decide as Hk.
    + intros [= <-]. right. split; [congruence | eauto].
    + rewrite lookup_singleton. case_decide as Hk'; [|intros [=]].
      intros [= <-]. left. split; [congruence | eauto].
  - rewrite lookup_singleton. case_decide as Hk'; [|intros [=]].
    intros [= <-]. left. split; [congruence | eauto].
Qed.

Lemma list_response_shape_witness :
  ("NextToken" = collection_key Function
   ∧ ∃ docs, @Token literal "page-2" = Documents docs)
  ∨ ("NextToken" = "NextToken" ∧ ∃ t, @Token literal "page-2" = Token t).
Proof.
  apply (list_response_shape
           (page_client {| Parameters := [ {| Name := "a"; Value := "true" |} ];
                           NextToken := Some "page-2" |})
           literal_loads Function ∅ empty_world
           (<["NextToken" := Token "page-2"]>
              {[ "EMRLaunchFunctions" := Documents [LTrue] ]})
           "NextToken" (Token "page-2")).
  - vm_compute. reflexivity.
  - vm_compute. reflexivity.
Defined.

(** *** Fields of the event *)

(** X8.  A [Namespace] field that is present is used as given, never
    replaced by the default: a JSON null gives the level [None], an empty
    string an empty level. *)
Theorem present_namespace_is_not_defaulted {Doc : Type} (ssm : ssm_client)
    (json_loads : string → decoding Doc) (c : category)
    (event : gmap string pyval) (w : world) (v : pyval) :
  event !! "Namespace" = Some v →
  queried_path w (snd (list_handler ssm json_loads c event w))
    (category_prefix c +:+ "/" +:+ py_format v +:+ "/")
  ∧ fetched_key w (snd (get_handler ssm json_loads c event w))
      (category_prefix c +:+ "/" +:+ py_format v +:+ "/"
         +:+ py_format (default (PStr "") (event !! name_field c))).
Proof.
  intros Hns. split.
  - pose proof (list_handler_path ssm json_loads c event w) as H.
    rewrite Hns in H. exact H.
  - pose proof (get_handler_key ssm json_loads c event w) as H.
    rewrite Hns in H. exact H.
Qed.

Lemma present_namespace_is_not_defaulted_witness :
  queried_path empty_world
    (snd (get_profiles_handler (store_client []) literal_loads
            {[ "Namespace" := PNone ]} empty_world))
    "/emr_launch/emr_profiles/None/"
  ∧ fetched_key empty_world
      (snd (get_profile_handler (store_client []) literal_loads
              {[ "Namespace" := PNone ]} empty_world))
      "/emr_launch/emr_profiles/None/".
Proof.
  exact (present_namespace_is_not_defaulted (store_client []) literal_loads Profile
           {[ "Namespace" := PNone ]} empty_world PNone eq_refl).
Defined.

(** X9.  A list handler sends a truthy [NextToken] of the event to the
    service as it is, beside the path and nothing else. *)
Theorem list_handler_sends_truthy_token {Doc : Type} (ssm : ssm_client)
    (json_loads : string → decoding Doc) (c : category)
    (event : gmap string pyval) (w : world) (tok : pyval) :
  event !! "NextToken" = Some tok →
  py_truthy tok = true →
  ssm_calls (snd (list_handler ssm json_loads c event w))
  = (ssm_calls w
       ++ [GetParametersByPath
             (<["NextToken" := tok]>
                {[ "Path" :=
                     PStr (category_prefix c +:+ "/"
                             +:+ py_format (default (PStr "default")
                                              (event !! "Namespace")) +:+ "/") ]})])%list.
Proof.
  intros Htok Htruthy. rewrite list_handler_run. cbn zeta. rewrite Htok.
  cbn [default from_option id].
  match goal with |- context [_get_parameter_values _ _ ?p ?t ?n ?k ?w1] =>
    pose proof (truthy_token_is_sent ssm json_loads p t n k w1 Htruthy) as Hsent;
    destruct (_get_parameter_values ssm json_loads p t n k w1) as [[resp|e] w']
  end; exact Hsent.
Qed.

Lemma list_handler_sends_truthy_token_witness :
  ssm_calls (snd (get_configurations_handler (store_client []) literal_loads
                    {[ "NextToken" := PStr "page-2"; "Namespace" := PStr "team-a" ]}
                    empty_world))
  = [GetParametersByPath
       (<["NextToken" := PStr "page-2"]>
          {[ "Path" := PStr "/emr_launch/cluster_configurations/team-a/" ]})].
Proof.
  exact (list_handler_sends_truthy_token (store_client []) literal_loads Configuration
           {[ "NextToken" := PStr "page-2"; "Namespace" := PStr "team-a" ]}
           empty_world (PStr "page-2") eq_refl eq_refl).
Defined.

(** X10.  The token a list handler returns comes from the reply of the
    service, and an event that carries it back makes the same query with
    that token in place of the earlier one; except that an empty token is
    dropped, so the query is the earlier one with no token at all. *)
Theorem returned_token_continues_listing {Doc : Type} (ssm : ssm_client)
    (json_loads : string → decoding Doc) (c : category)
    (event : gmap string pyval) (w w2 : world)
    (resp : gmap string (respval Doc)) (t : string) :
  fst (list_handler ssm json_loads c event w) = Return resp →
  resp !! "NextToken" = Some (Token t) →
  ∃ params r,
    ssm_calls (snd (list_handler ssm json_loads c event w))
      = (ssm_calls w ++ [GetParametersByPath params])%list
    ∧ get_parameters_by_path ssm params = Succeeds r
    ∧ NextToken r = Some t
    ∧ ssm_calls (snd (list_handler ssm json_loads c
                        (<["NextToken" := PStr t]> event) w2))
      = (ssm_calls w2
           ++ [GetParametersByPath
                 (if String.eqb t "" then delete "NextToken" params
                  else <["NextToken" := PStr t]> params)])%list.
Proof.
  rewrite !list_handler_run, !_get_parameter_values_run. cbn zeta.
  rewrite lookup_insert_eq, lookup_insert_ne by done.
  cbn [default from_option id py_truthy].
  match goal with |- context [GetParametersByPath (if ?b then <[_:=?k]> ?m else _)] =>
    set (path_only := m); set (params := if b then <["NextToken":=k]> path_only else path_only)
  end.
  destruct (get_parameters_by_path ssm params) as [r|e] eqn:Hcall; [|intros [=]].
  destruct (decode_list json_loads (Parameters r)) as [ds|m]; [|intros [=]].
  cbn. intros [= <-] Htoken. rewrite list_response_token in Htoken.
  destruct (NextToken r) as [t'|] eqn:Ht; [|discriminate Htoken].
  injection Htoken as ->.
  exists params, r. split; [reflexivity|]. split; [assumption|].
  split; [exact Ht|].
  assert (delete "NextToken" params = path_only) as Hdel.
  { unfold params. destruct (py_truthy _).
    - rewrite delete_insert_eq. apply delete_singleton_ne. done.
    - apply delete_singleton_ne. done. }
  assert (<["NextToken" := PStr t]> params = <["NextToken" := PStr t]> path_only) as Hins.
  { unfold params. destruct (py_truthy _); [apply insert_insert_eq | reflexivity]. }
  rewrite Hdel, Hins.
  destruct (String.eqb t "") eqn:Hempty; cbn [negb].
  - destruct (get_parameters_by_path ssm path_only) as [r2|e2]; [|reflexivity].
    destruct (decode_list json_loads (Parameters r2)); reflexivity.
  - destruct (get_parameters_by_path ssm (<["NextToken" := PStr t]> path_only))
      as [r2|e2]; [|reflexivity].
    destruct (decode_list json_loads (Parameters r2)); reflexivity.
Qed.

Lemma returned_token_continues_listing_witness :
  ∃ params r,
    ssm_calls (snd (get_profiles_handler
                      (page_client {| Parameters := []; NextToken := Some "page-2" |})
                      literal_loads {[ "NextToken" := PStr "page-1" ]} empty_world))
      = (ssm_calls empty_world ++ [GetParametersByPath params])%list
    ∧ get_parameters_by_path
        (page_client {| Parameters := []; NextToken := Some "page-2" |}) params
      = Succeeds r
    ∧ NextToken r = Some "page-2"
    ∧ ssm_calls (snd (get_profiles_handler
                        (page_client {| Parameters := []; NextToken := Some "page-2" |})
                        literal_loads
                        (<["NextToken" := PStr "page-2"]> {[ "NextToken" := PStr "page-1" ]})
                        empty_world))
      = (ssm_calls empty_world
           ++ [GetParametersByPath (<["NextToken" := PStr "page-2"]> params)])%list.
Proof.
  apply (returned_token_continues_listing
           (page_client {| Parameters := []; NextToken := Some "page-2" |})
           literal_loads Profile {[ "NextToken" := PStr "page-1" ]}
           empty_world empty_world
           (<["NextToken" := Token "page-2"]> {[ "EMRProfiles" := Documents [] ]})
           "page-2").
  - vm_compute. reflexivity.
  - vm_compute. reflexivity.
Defined.

(** X11.  A list handler reads the fields [Namespace] and [NextToken] of the
    event and no other: two events that agree on both end the same way and
    make the same call.  A get handler reads [Namespace] and the name field
    of its category and no other. *)
Theorem handlers_read_only_their_fields {Doc : Type} (ssm : ssm_client)
    (json_loads : string → decoding Doc) (c : category)
    (event1 event2 : gmap string pyval) (w : world) :
  event1 !! "Namespace" = event2 !! "Namespace" →
  (event1 !! "NextToken" = event2 !! "NextToken" →
   fst (list_handler ssm json_loads c event1 w)
     = fst (list_handler ssm json_loads c event2 w)
   ∧ ssm_calls (snd (list_handler ssm json_loads c event1 w))
     = ssm_calls (snd (list_handler ssm json_loads c event2 w)))
  ∧ (event1 !! name_field c = event2 !! name_field c →
     fst (get_handler ssm json_loads c event1 w)
       = fst (get_handler ssm json_loads c event2 w)
     ∧ ssm_calls (snd (get_handler ssm json_loads c event1 w))
       = ssm_calls (snd (get_handler ssm json_loads c event2 w))).
Proof.
  intros Hns. split.
  - intros Htok. rewrite !list_handler_run, !_get_parameter_values_run. cbn zeta.
    rewrite Hns, Htok.
    destruct (get_parameters_by_path ssm _) as [r|e]; [|split; reflexivity].
    destruct (decode_list json_loads (Parameters r)); split; reflexivity.
  - intros Hname. rewrite !get_handler_run, !_get_parameter_value_run. cbn zeta.
    rewrite Hns, Hname.
    destruct (get_parameter ssm _) as [r|[code m|m|d]]; try (split; reflexivity).
    + destruct (json_loads (Value (Parameter_ r))); split; reflexivity.
    + cbn. destruct (String.eqb code "ParameterNotFound"); split; reflexivity.
Qed.

Lemma handlers_read_only_their_fields_witness :
  fst (get_profiles_handler (store_client []) literal_loads
         {[ "ProfileName" := PStr "small" ]} empty_world)
    = fst (get_profiles_handler (store_client []) literal_loads ∅ empty_world)
  ∧ fst (get_profile_handler (store_client []) literal_loads
           {[ "NextToken" := PStr "page-2" ]} empty_world)
    = fst (get_profile_handler (store_client []) literal_loads ∅ empty_world).
Proof.
  split.
  - exact (proj1 (proj1 (handlers_read_only_their_fields (store_client [])
                           literal_loads Profile
                           {[ "ProfileName" := PStr "small" ]} ∅ empty_world eq_refl)
                    eq_refl)).
  - exact (proj1 (proj2 (handlers_read_only_their_fields (store_client [])
                           literal_loads Profile
                           {[ "NextToken" := PStr "page-2" ]} ∅ empty_world eq_refl)
                    eq_refl)).
Defined.

(** *** The list handler and the get handler of a category together *)

Lemma prefix_of_append (a b : string) : String.prefix a (a +:+ b) = true.
Proof.
  rewrite <- (append_nil_r a) at 1. rewrite prefix_app_cancel. apply prefix_nil.
Qed.

Lemma key_is_path_then_name (p ns name : string) :
  p +:+ "/" +:+ ns +:+ "/" +:+ name = (p +:+ "/" +:+ ns +:+ "/") +:+ name.
Proof. rewrite !append_assoc. reflexivity. Qed.

Lemma decoded_member {Doc : Type} (json_loads : string → decoding Doc)
    (ps : list parameter) (docs : list Doc) (p : parameter) :
  Forall2 (λ p d, json_loads (Value p) = Decoded d) ps docs →
  p ∈ ps →
  ∃ d, d ∈ docs ∧ json_loads (Value p) = Decoded d.
Proof.
  intros Hall. induction Hall as [|q d ps docs Hq _ IH]; intros Hin.
  - inversion Hin.
  - apply elem_of_cons in Hin as [->|Hin].
    + exists d. split; [left | exact Hq].
    + destruct (IH Hin) as (d' & Hd' & Hp). exists d'. split; [right; exact Hd' | exact Hp].
Qed.

(** X12.  For one event, the key a get handler fetches is the path the list
    handler of the same category queries, followed by the name: every key
    fetched lies under the path listed for its namespace. *)
Theorem fetched_key_extends_listed_path {Doc : Type} (ssm : ssm_client)
    (json_loads : string → decoding Doc) (c : category)
    (event : gmap string pyval) (w : world) :
  ∃ path key,
    queried_path w (snd (list_handler ssm json_loads c event w)) path
    ∧ fetched_key w (snd (get_handler ssm json_loads c event w)) key
    ∧ key = path +:+ py_format (default (PStr "") (event !! name_field c))
    ∧ String.prefix path key = true.
Proof.
  eexists. eexists.
  split; [apply list_handler_path|].
  split; [apply get_handler_key|].
  split; [apply key_is_path_then_name|].
  rewrite key_is_path_then_name. apply prefix_of_append.
Qed.

Lemma store_client_lists_what_it_fetches (store : list (string * string))
    (key : string) (r : get_parameter_result) (params : gmap string pyval)
    (path : string) (page : by_path_result) :
  get_parameter (store_client store) key = Succeeds r →
  params !! "Path" = Some (PStr path) →
  String.prefix path key = true →
  get_parameters_by_path (store_client store) params = Succeeds page →
  Parameter_ r ∈ Parameters page.
Proof.
  cbn. unfold store_lookup. intros Hget Hpath Hprefix.
  rewrite Hpath. intros [= <-]. cbn.
  destruct (find _ store) as [[k v]|] eqn:Hfind; [|discriminate Hget].
  cbn in Hget. injection Hget as <-. cbn.
  apply find_some in Hfind as [Hin Hk]. cbn in Hk.
  apply String.eqb_eq in Hk as ->.
  apply list_elem_of_fmap. exists (key, v). split; [reflexivity|].
  apply list_elem_of_filter. split; [exact Hprefix|].
  apply list_elem_of_In. exact Hin.
Qed.

(** X13.  On a service that returns, for a path query, every parameter it
    would fetch under that path, a document returned by the get handler is
    among the documents the list handler of the same category returns for
    the same event. *)
Theorem fetched_document_is_listed {Doc : Type} (ssm : ssm_client)
    (json_loads : string → decoding Doc) (c : category)
    (event : gmap string pyval) (w : world) (d : Doc)
    (resp : gmap string (respval Doc)) :
  (∀ key r params path page,
     get_parameter ssm key = Succeeds r →
     params !! "Path" = Some (PStr path) →
     String.prefix path key = true →
     get_parameters_by_path ssm params = Succeeds page →
     Parameter_ r ∈ Parameters page) →
  fst (get_handler ssm json_loads c event w) = Return d →
  fst (list_handler ssm json_loads c event w) = Return resp →
  ∃ docs, resp !! collection_key c = Some (Documents docs) ∧ d ∈ docs.
Proof.
  intros Hservice.
  rewrite get_handler_run, _get_parameter_value_run,
    list_handler_run, _get_parameter_values_run. cbn zeta.
  match goal with |- context [get_parameter ssm ?k] => set (key := k) end.
  match goal with |- context [get_parameters_by_path ssm ?p] => set (params := p) end.
  destruct (get_parameter ssm key) as [r|[code m|m|e]] eqn:Hget; cbn;
    try (intros [=]; fail);
    [|destruct (String.eqb code "ParameterNotFound"); intros [=]].
  destruct (json_loads (Value (Parameter_ r))) as [d'|m] eqn:Hd; [|intros [=]].
  cbn. intros [= ->].
  destruct (get_parameters_by_path ssm params) as [page|e] eqn:Hcall; [|intros [=]].
  destruct (decode_list json_loads (Parameters page)) as [docs|m] eqn:Hdocs;
    [|intros [=]].
  cbn. intros [= <-]. exists docs. split; [apply list_response_collection|].
  assert (Parameter_ r ∈ Parameters page) as Hin.
  { apply (Hservice key r params
             (category_prefix c +:+ "/"
                +:+ py_format (default (PStr "default") (event !! "Namespace"))
                +:+ "/") page); try assumption.
    - unfold params. destruct (py_truthy _);
        [rewrite lookup_insert_ne by done|]; apply lookup_singleton_eq.
    - unfold key. rewrite key_is_path_then_name. apply prefix_of_append. }
  apply decode_list_Forall2 in Hdocs.
  destruct (decoded_member json_loads _ _ _ Hdocs Hin) as (d' & Hd' & Hdec).
  rewrite Hd in Hdec. injection Hdec as <-. exact Hd'.
Qed.

Lemma fetched_document_is_listed_witness :
  ∃ docs,
    (({[ "ClusterConfigurations" := Documents [LNull; LTrue] ]})
       : gmap string (respval literal)) !! "ClusterConfigurations"
      = Some (Documents docs)
    ∧ LTrue ∈ docs.
Proof.
  apply (fetched_document_is_listed
           (store_client [("/emr_launch/cluster_configurations/team-a/c1", "null");
                          ("/emr_launch/cluster_configurations/team-ab/c0", "false");
                          ("/emr_launch/cluster_configurations/team-a/c2", "true")])
           literal_loads Configuration
           {[ "Namespace" := PStr "team-a"; "ConfigurationName" := PStr "c2" ]}
           empty_world LTrue
           {[ "ClusterConfigurations" := Documents [LNull; LTrue] ]}).
  - apply store_client_lists_what_it_fetches.
  - vm_compute. reflexivity.
  - vm_compute. reflexivity.
Defined.

(** *** Addressing *)

Lemma last_call_inj (calls : list ssm_call) (c1 c2 : ssm_call) :
  (calls ++ [c1])%list = (calls ++ [c2])%list → c1 = c2.
Proof. intros H. apply app_inv_head in H. congruence. Qed.

Lemma level_then_rest_inj (ns1 ns2 rest1 rest2 : string) :
  no_separator ns1 = true →
  no_separator ns2 = true →
  ns1 +:+ "/" +:+ rest1 = ns2 +:+ "/" +:+ rest2 →
  ns1 = ns2 ∧ rest1 = rest2.
Proof.
  revert ns2. induction ns1 as [|x ns1 IH]; intros [|y ns2] H1 H2; push_append.
  - intros [= ->]. split; reflexivity.
  - intros [= <- _]. cbn [no_separator] in H2.
    apply andb_true_iff in H2 as [Hy _]. discriminate Hy.
  - intros [= -> _]. cbn [no_separator] in H1.
    apply andb_true_iff in H1 as [Hx _]. discriminate Hx.
  - intros [= -> Heq]. cbn [no_separator] in H1, H2.
    apply andb_true_iff in H1 as [_ H1]. apply andb_true_iff in H2 as [_ H2].
    destruct (IH ns2 H1 H2 Heq) as [-> ->]. split; reflexivity.
Qed.

(** X14.  With namespaces that hold no separator, the key a get handler
    fetches determines the namespace and the name: two requests of one
    category that fetch the same key have the same namespace and name. *)
Theorem fetched_key_determines_namespace_and_name {Doc : Type} (ssm : ssm_client)
    (json_loads : string → decoding Doc) (c : category)
    (event1 event2 : gmap string pyval) (w : world) (key : string) :
  let ns1 := py_format (default (PStr "default") (event1 !! "Namespace")) in
  let ns2 := py_format (default (PStr "default") (event2 !! "Namespace")) in
  let name1 := py_format (default (PStr "") (event1 !! name_field c)) in
  let name2 := py_format (default (PStr "") (event2 !! name_field c)) in
  no_separator ns1 = true →
  no_separator ns2 = true →
  fetched_key w (snd (get_handler ssm json_loads c event1 w)) key →
  fetched_key w (snd (get_handler ssm json_loads c event2 w)) key →
  ns1 = ns2 ∧ name1 = name2.
Proof.
  intros ns1 ns2 name1 name2 H1 H2 Hk1 Hk2.
  pose proof (get_handler_key ssm json_loads c event1 w) as Hk1'.
  pose proof (get_handler_key ssm json_loads c event2 w) as Hk2'.
  unfold fetched_key in *.
  rewrite Hk1 in Hk1'. rewrite Hk2 in Hk2'.
  apply last_call_inj in Hk1'. apply last_call_inj in Hk2'.
  injection Hk1' as Hkey1. injection Hk2' as Hkey2.
  fold ns1 name1 in Hkey1. fold ns2 name2 in Hkey2.
  rewrite Hkey1 in Hkey2.
  apply (inj (String.app (category_prefix c))) in Hkey2.
  apply (inj (String.app "/")) in Hkey2.
  apply level_then_rest_inj; assumption.
Qed.

Lemma fetched_key_determines_namespace_and_name_witness :
  py_format (default (PStr "default")
               (({[ "ProfileName" := PStr "small" ]} : gmap string pyval) !! "Namespace"))
    = py_format (default (PStr "default")
                   (({[ "ProfileName" := PStr "small"; "Namespace" := PStr "default" ]}
                      : gmap string pyval) !! "Namespace"))
  ∧ py_format (default (PStr "")
                 (({[ "ProfileName" := PStr "small" ]} : gmap string pyval)
                    !! name_field Profile))
    = py_format (default (PStr "")
                   (({[ "ProfileName" := PStr "small"; "Namespace" := PStr "default" ]}
                      : gmap string pyval) !! name_field Profile)).
Proof.
  apply (fetched_key_determines_namespace_and_name (store_client []) literal_loads
           Profile {[ "ProfileName" := PStr "small" ]}
           {[ "ProfileName" := PStr "small"; "Namespace" := PStr "default" ]}
           empty_world "/emr_launch/emr_profiles/default/small").
  - reflexivity.
  - reflexivity.
  - vm_compute. reflexivity.
  - vm_compute. reflexivity.
Defined.

(** With a separator in the namespace two different requests fetch one key. *)
Example separator_in_namespace_shares_key :
  ssm_calls (snd (get_profile_handler (store_client []) literal_loads
                    {[ "Namespace" := PStr "a/b"; "ProfileName" := PStr "c" ]}
                    empty_world))
  = ssm_calls (snd (get_profile_handler (store_client []) literal_loads
                      {[ "Namespace" := PStr "a"; "ProfileName" := PStr "b/c" ]}
                      empty_world)).
Proof. vm_compute. reflexivity. Qed.

Lemma category_paths_disjoint (c1 c2 : category) (rest1 rest2 : string) :
  c1 ≠ c2 →
  String.prefix (category_prefix c1 +:+ "/" +:+ rest1)
    (category_prefix c2 +:+ "/" +:+ rest2) = false.
Proof.
  intros Hne. destruct c1, c2; try contradiction; vm_compute; reflexivity.
Qed.

(** X15.  The categories do not overlap: the path queried by the list
    handler of one category is never a prefix of a key fetched by the get
    handler of another category, whatever the namespaces and the name. *)
Theorem categories_do_not_overlap {Doc : Type} (ssm : ssm_client)
    (json_loads : string → decoding Doc) (c1 c2 : category)
    (event1 event2 : gmap string pyval) (w1 w2 : world) (path key : string) :
  c1 ≠ c2 →
  queried_path w1 (snd (list_handler ssm json_loads c1 event1 w1)) path →
  fetched_key w2 (snd (get_handler ssm json_loads c2 event2 w2)) key →
  String.prefix path key = false.
Proof.
  intros Hne (params & Hcalls & Hpath) Hkey.
  destruct (list_handler_path ssm json_loads c1 event1 w1) as (params' & Hcalls' & Hpath').
  pose proof (get_handler_key ssm json_loads c2 event2 w2) as Hkey'.
  unfold fetched_key in *.
  rewrite Hcalls in Hcalls'. apply last_call_inj in Hcalls'. injection Hcalls' as <-.
  rewrite Hpath in Hpath'. injection Hpath' as ->.
  rewrite Hkey in Hkey'. apply last_call_inj in Hkey'. injection Hkey' as ->.
  apply category_paths_disjoint. exact Hne.
Qed.

Lemma categories_do_not_overlap_witness :
  String.prefix "/emr_launch/emr_profiles/default/"
    "/emr_launch/emr_launch_functions/default/launch" = false.
Proof.
  apply (categories_do_not_overlap (store_client []) literal_loads Profile Function
           ∅ {[ "FunctionName" := PStr "launch" ]} empty_world empty_world).
  - discriminate.
  - exact (list_handler_path (store_client []) literal_loads Profile ∅ empty_world).
  - vm_compute. reflexivity.
Defined.
